(** * BiQuad: the STK two-pole, two-zero filter (src/BiQuad.cpp)

    A shallow embedding of the coefficient operations of [stk::BiQuad] and
    the properties of them that the specification states.

    [StkFloat] is C++ [double]; it is modelled by Rocq's primitive binary64
    floats, so that every product, sum and quotient rounds as the program's
    does, a division by zero gives an infinity and [0 * infinity] gives a NaN.
    Each operation is evaluated in binary64, in the order the C++ expression
    gives it; no operation is fused with another or carried out in a wider
    format.  The vectors [b_] and [a_] are lists updated by index.  The
    methods are [void] and mutate the object: each one is a function from
    the object before the call to the object after it. *)

From Stdlib Require Import Floats ZArith Bool String.
From stdpp Require Import base list.

Set Warnings "-inexact-float".
Local Open Scope float_scope.

(** ** What the class uses from the rest of STK *)

Definition StkFloat : Type := float.

(** The error types of [StkError].  The source names [WARNING] only; the
    other constructor stands for the types that are not warnings. *)
Inductive StkErrorType : Type :=
| WARNING
| OTHER_ERROR.

(** What [oStream_ << x] appends to the message stream: a string literal, or
    a number that the stream formats. *)
Inductive fragment : Type :=
| Text (s : string)
| Num (x : StkFloat).

(** The calls the object makes to its collaborators, in the order made. *)
Inductive event : Type :=
| EvAddSampleRateAlert
| EvClear
| EvError (message : list fragment) (type : StkErrorType).

(** [BiQuad::FilterType].  A C++ enumeration can also hold a value that is
    none of its enumerators (the [default:] branch of the [switch] in
    [setFilterType] is there for it); [Unrecognized v] is such a value. *)
Inductive FilterType : Type :=
| LowPass
| HighPass
| BandPass
| BandReject
| AllPass
| Unrecognized (v : Z).

Definition recognized (t : FilterType) : bool :=
  match t with
  | Unrecognized _ => false
  | _ => true
  end.

(** The object: the coefficient vectors and delay lines of [Filter], the
    message stream and the flag of [Stk], and the trace of the calls made. *)
Record BiQuad : Type := mkBiQuad {
  b_ : list StkFloat;
  a_ : list StkFloat;
  inputs_ : list StkFloat;
  outputs_ : list StkFloat;
  oStream_ : list fragment;
  ignoreSampleRateChange_ : bool;
  trace : list event
}.

(** [v[i]] read and written.  [std::vector::operator[]] does not check its
    index; the constructor sizes both vectors to 3 and every index in the
    source is 0, 1 or 2, so the out-of-range cases ([0] read, nothing
    written) are never reached from a constructed object. *)
Definition vec_get (v : list StkFloat) (i : nat) : StkFloat :=
  default 0 (v !! i).

Definition vec_set (v : list StkFloat) (i : nat) (x : StkFloat) : list StkFloat :=
  <[i:=x]> v.

Definition get_b (i : nat) (s : BiQuad) : StkFloat := vec_get (b_ s) i.
Definition get_a (i : nat) (s : BiQuad) : StkFloat := vec_get (a_ s) i.

Definition set_b (i : nat) (x : StkFloat) (s : BiQuad) : BiQuad :=
  mkBiQuad (vec_set (b_ s) i x) (a_ s) (inputs_ s) (outputs_ s)
           (oStream_ s) (ignoreSampleRateChange_ s) (trace s).

Definition set_a (i : nat) (x : StkFloat) (s : BiQuad) : BiQuad :=
  mkBiQuad (b_ s) (vec_set (a_ s) i x) (inputs_ s) (outputs_ s)
           (oStream_ s) (ignoreSampleRateChange_ s) (trace s).

(** [oStream_ << x]. *)
Definition put (x : fragment) (s : BiQuad) : BiQuad :=
  mkBiQuad (b_ s) (a_ s) (inputs_ s) (outputs_ s)
           (oStream_ s ++ [x]) (ignoreSampleRateChange_ s) (trace s).

Definition emit (e : event) (s : BiQuad) : BiQuad :=
  mkBiQuad (b_ s) (a_ s) (inputs_ s) (outputs_ s)
           (oStream_ s) (ignoreSampleRateChange_ s) (trace s ++ [e]).

(** Modelled from the spec: [Stk::handleError] (Stk.cpp is not part of the
    sources).  The warning sink receives the message and its severity; the
    message stream is emptied for the next message.  Control comes back to
    the caller: the sink does not fail on a warning. *)
Definition handleError (type : StkErrorType) (s : BiQuad) : BiQuad :=
  mkBiQuad (b_ s) (a_ s) (inputs_ s) (outputs_ s)
           [] (ignoreSampleRateChange_ s)
           (trace s ++ [EvError (oStream_ s) type]).

(** Modelled from the spec: [Filter::clear] (Filter.h is not part of the
    sources).  The delay lines are zeroed; the call is recorded. *)
Definition clear (s : BiQuad) : BiQuad :=
  mkBiQuad (b_ s) (a_ s)
           (replicate (length (inputs_ s)) 0)
           (replicate (length (outputs_ s)) 0)
           (oStream_ s) (ignoreSampleRateChange_ s) (trace s ++ [EvClear]).

(** The object as the base-class constructors leave it: empty vectors, an
    empty message stream, rate changes not ignored. *)
Definition Filter_init : BiQuad :=
  mkBiQuad [] [] [] [] [] false [].

(** ** The methods of BiQuad.cpp *)

(** [BiQuad::BiQuad()]. *)
Definition BiQuad_new : BiQuad :=
  let s := Filter_init in
  let s := mkBiQuad (resize 3 0 (b_ s)) (a_ s) (inputs_ s) (outputs_ s)
                    (oStream_ s) (ignoreSampleRateChange_ s) (trace s) in
  let s := mkBiQuad (b_ s) (resize 3 0 (a_ s)) (inputs_ s) (outputs_ s)
                    (oStream_ s) (ignoreSampleRateChange_ s) (trace s) in
  let s := set_b 0 1 s in
  let s := set_a 0 1 s in
  let s := mkBiQuad (b_ s) (a_ s) (resize 3 0 (inputs_ s)) (outputs_ s)
                    (oStream_ s) (ignoreSampleRateChange_ s) (trace s) in
  let s := mkBiQuad (b_ s) (a_ s) (inputs_ s) (resize 3 0 (outputs_ s))
                    (oStream_ s) (ignoreSampleRateChange_ s) (trace s) in
  emit EvAddSampleRateAlert s.

(** [BiQuad::setCoefficients]. *)
Definition setCoefficients (b0 b1 b2 a1 a2 : StkFloat) (clearState : bool)
    (s : BiQuad) : BiQuad :=
  let s := set_b 0 b0 s in
  let s := set_b 1 b1 s in
  let s := set_b 2 b2 s in
  let s := set_a 1 a1 s in
  let s := set_a 2 a2 s in
  if clearState then clear s else s.

(** [BiQuad::sampleRateChanged]. *)
Definition sampleRateChanged (newRate oldRate : StkFloat) (s : BiQuad) : BiQuad :=
  if negb (ignoreSampleRateChange_ s) then
    let s := put (Text "BiQuad::sampleRateChanged: you may need to recompute filter coefficients!") s in
    handleError WARNING s
  else s.

(** [BiQuad::setEqualGainZeroes]. *)
Definition setEqualGainZeroes (s : BiQuad) : BiQuad :=
  let s := set_b 0 1 s in
  let s := set_b 1 0 s in
  set_b 2 (-1) s.

Section Build.

(** [cos] and [tan] of the C library, the constants [PI] and [TWO_PI] of
    Stk.h, and whether the build defines [_STK_DEBUG_]. *)
Variables cos tan : StkFloat -> StkFloat.
Variables PI TWO_PI : StkFloat.
Variable STK_DEBUG : bool.

(** The methods below read the static sample rate through
    [Stk::sampleRate()]; its value at the call is the argument [srate]. *)

(** [BiQuad::setResonance]. *)
Definition setResonance (srate : StkFloat)
    (frequency radius : StkFloat) (normalize : bool) (s : BiQuad) : BiQuad :=
  if STK_DEBUG && ((frequency <? 0) || (0.5 * srate <? frequency)) then
    let s := put (Text "BiQuad::setResonance: frequency argument (") s in
    let s := put (Num frequency) s in
    let s := put (Text ") is out of range!") s in
    handleError WARNING s
  else if STK_DEBUG && ((radius <? 0) || (1 <=? radius)) then
    let s := put (Text "BiQuad::setResonance: radius argument (") s in
    let s := put (Num radius) s in
    let s := put (Text ") is out of range!") s in
    handleError WARNING s
  else
    let s := set_a 2 (radius * radius) s in
    let s := set_a 1 (-2 * radius * cos (TWO_PI * frequency / srate)) s in
    if normalize then
      let s := set_b 0 (0.5 - 0.5 * get_a 2 s) s in
      let s := set_b 1 0 s in
      set_b 2 (- get_b 0 s) s
    else s.

(** [BiQuad::setNotch].  The casts [(StkFloat)] and [(double)] of the source
    are between [double] and itself. *)
Definition setNotch (srate : StkFloat)
    (frequency radius : StkFloat) (s : BiQuad) : BiQuad :=
  if STK_DEBUG && ((frequency <? 0) || (0.5 * srate <? frequency)) then
    let s := put (Text "BiQuad::setNotch: frequency argument (") s in
    let s := put (Num frequency) s in
    let s := put (Text ") is out of range!") s in
    handleError WARNING s
  else if STK_DEBUG && (radius <? 0) then
    let s := put (Text "BiQuad::setNotch: radius argument (") s in
    let s := put (Num radius) s in
    let s := put (Text ") is negative!") s in
    handleError WARNING s
  else
    let s := set_b 2 (radius * radius) s in
    set_b 1 (-2 * radius * cos (TWO_PI * frequency / srate)) s.

(** [BiQuad::setFilterType]. *)
Definition setFilterType (srate : StkFloat)
    (filterType : FilterType) (frequency Q : StkFloat) (s : BiQuad) : BiQuad :=
  if STK_DEBUG && (frequency <? 0) then
    let s := put (Text "BiQuad::setFilterType: frequency argument (") s in
    let s := put (Num frequency) s in
    let s := put (Text ") is negative!") s in
    handleError WARNING s
  else if STK_DEBUG && (Q <? 0) then
    let s := put (Text "BiQuad::setFilterType: Q argument (") s in
    let s := put (Num Q) s in
    let s := put (Text ") is negative!") s in
    handleError WARNING s
  else
    let K := tan (PI * frequency / srate) in
    let kSqr := K * K in
    let denom := 1 / (kSqr * Q + K + Q) in
    let s := set_a 1 (2 * Q * (kSqr - 1) * denom) s in
    let s := set_a 2 ((kSqr * Q - K + Q) * denom) s in
    match filterType with
    | LowPass =>
        let s := set_b 0 (kSqr * Q * denom) s in
        let s := set_b 1 (2 * get_b 0 s) s in
        set_b 2 (get_b 0 s) s
    | HighPass =>
        let s := set_b 0 (Q * denom) s in
        let s := set_b 1 (-2 * get_b 0 s) s in
        set_b 2 (get_b 0 s) s
    | BandPass =>
        let s := set_b 0 (K * denom) s in
        let s := set_b 1 0 s in
        set_b 2 (- get_b 0 s) s
    | BandReject =>
        let s := set_b 0 (Q * (kSqr + 1) * denom) s in
        let s := set_b 1 (2 * Q * (kSqr - 1) * denom) s in
        set_b 2 (get_b 0 s) s
    | AllPass =>
        let s := set_b 0 (get_a 2 s) s in
        let s := set_b 1 (get_a 1 s) s in
        set_b 2 1 s
    | Unrecognized _ =>
        let s := put (Text "BiQuadDesign::getCoefficients: current FilterType is invalid...") s in
        handleError WARNING s
    end.

End Build.

(** ** A platform to run the methods on

    The theorems below hold for every [cos], [tan], [PI] and [TWO_PI].  To
    evaluate the methods on concrete calls they are given values here: pi
    to fifteen digits and its double for the constants, and for [cos] and
    [tan] their Maclaurin series evaluated in binary64, which is accurate on
    the arguments [0 .. pi] that in-range frequencies produce. *)
Module Libm.

(** [1 - x2/(k(k+1)) * (1 - x2/((k+2)(k+3)) * ...)], [n] factors deep. *)
Fixpoint series (x2 k : float) (n : nat) : float :=
  match n with
  | O => 1
  | S n' => 1 - x2 / (k * (k + 1)) * series x2 (k + 2) n'
  end.

Definition cos (x : float) : float := series (x * x) 1 16.
Definition sin (x : float) : float := x * series (x * x) 2 16.
Definition tan (x : float) : float := sin x / cos x.

Definition PI : float := 3.14159265358979.
Definition TWO_PI : float := 2 * PI.

End Libm.

(** ** Objects and their histories *)

(** Modelled from the spec: [Stk::ignoreSampleRateChange] (Stk.h is not part
    of the sources), by which an object is configured to ignore the notices
    of a rate change. *)
Definition ignoreSampleRateChange (ignore : bool) (s : BiQuad) : BiQuad :=
  mkBiQuad (b_ s) (a_ s) (inputs_ s) (outputs_ s)
           (oStream_ s) ignore (trace s).

(** An object whose coefficient vectors have the three entries the
    constructor gives them. *)
Definition wf (s : BiQuad) : Prop :=
  length (b_ s) = 3%nat /\ length (a_ s) = 3%nat.

(** The calls a client can make on an object. *)
Inductive call : Type :=
| CallSetCoefficients (b0 b1 b2 a1 a2 : StkFloat) (clearState : bool)
| CallSetResonance (frequency radius : StkFloat) (normalize : bool)
| CallSetNotch (frequency radius : StkFloat)
| CallSetFilterType (filterType : FilterType) (frequency Q : StkFloat)
| CallSetEqualGainZeroes
| CallSampleRateChanged (newRate oldRate : StkFloat)
| CallIgnoreSampleRateChange (ignore : bool).

Section Run.

Variables cos tan : StkFloat -> StkFloat.
Variables PI TWO_PI : StkFloat.
Variable STK_DEBUG : bool.

(** One call, made while the sample rate is [srate]. *)
Definition run (srate : StkFloat) (c : call) (s : BiQuad) : BiQuad :=
  match c with
  | CallSetCoefficients b0 b1 b2 a1 a2 clearState =>
      setCoefficients b0 b1 b2 a1 a2 clearState s
  | CallSetResonance frequency radius normalize =>
      setResonance cos TWO_PI STK_DEBUG srate frequency radius normalize s
  | CallSetNotch frequency radius =>
      setNotch cos TWO_PI STK_DEBUG srate frequency radius s
  | CallSetFilterType filterType frequency Q =>
      setFilterType tan PI STK_DEBUG srate filterType frequency Q s
  | CallSetEqualGainZeroes => setEqualGainZeroes s
  | CallSampleRateChanged newRate oldRate => sampleRateChanged newRate oldRate s
  | CallIgnoreSampleRateChange ignore => ignoreSampleRateChange ignore s
  end.

(** The objects a program can hold: a constructed one, and what any call at
    any sample rate makes of one. *)
Inductive reachable : BiQuad -> Prop :=
| reachable_new : reachable BiQuad_new
| reachable_run srate c s : reachable s -> reachable (run srate c s).

End Run.

(** ** The words of the specification *)

(** [frequency] in [[0, Nyquist]], the Nyquist frequency being half the
    sample rate. *)
Definition frequency_in_range (srate frequency : StkFloat) : Prop :=
  (0 <=? frequency) = true /\ (frequency <=? 0.5 * srate) = true.

(** [frequency] outside [[0, Nyquist]]: below 0 or above the Nyquist
    frequency.  (A NaN is on neither side of a bound.) *)
Definition frequency_out_of_range (srate frequency : StkFloat) : Prop :=
  (frequency <? 0) = true \/ (0.5 * srate <? frequency) = true.

(** [radius] in [[0, 1)] and outside it. *)
Definition pole_radius_in_range (radius : StkFloat) : Prop :=
  (0 <=? radius) = true /\ (radius <? 1) = true.

Definition pole_radius_out_of_range (radius : StkFloat) : Prop :=
  (radius <? 0) = true \/ (1 <=? radius) = true.

(** The five coefficients of an object. *)
Definition coefficients (s : BiQuad) : list StkFloat :=
  [get_b 0 s; get_b 1 s; get_b 2 s; get_a 1 s; get_a 2 s].

(** The warnings in a trace. *)
Definition is_warning (e : event) : bool :=
  match e with
  | EvError _ WARNING => true
  | _ => false
  end.

Definition warnings (t : list event) : list event := filter is_warning t.

(** The state resets in a trace. *)
Definition is_clear (e : event) : bool :=
  match e with
  | EvClear => true
  | _ => false
  end.

Definition clears (t : list event) : nat := length (filter is_clear t).




(** Whether a build with [_STK_DEBUG_] sends the call back at its tests of
    the frequency and of Q. *)
Definition rejected (STK_DEBUG : bool) (frequency Q : StkFloat) : bool :=
  STK_DEBUG && ((frequency <? 0) || (Q <? 0)).

(** The message of the [default:] branch. *)
Definition invalid_type_message : list fragment :=
  [Text "BiQuadDesign::getCoefficients: current FilterType is invalid..."].

(** ** Objects to run the methods on *)

(** An object whose coefficients are not those of a new one. *)
Definition sample_object : BiQuad :=
  mkBiQuad [0.25; 0.5; 0.75] [1; -1.5; 0.9] [0.1; 0.2; 0.3] [0.4; 0.5; 0.6]
           [] false [EvAddSampleRateAlert].

(** A history of six calls, the rate changing on the way. *)
Definition sample_history : BiQuad :=
  run Libm.cos Libm.tan Libm.PI Libm.TWO_PI true 48000 CallSetEqualGainZeroes
    (run Libm.cos Libm.tan Libm.PI Libm.TWO_PI true 48000
         (CallSetFilterType (Unrecognized 7) 0 0)
       (run Libm.cos Libm.tan Libm.PI Libm.TWO_PI true 48000
            (CallSampleRateChanged 48000 44100)
          (run Libm.cos Libm.tan Libm.PI Libm.TWO_PI true 44100
               (CallSetNotch 440 1.25)
             (run Libm.cos Libm.tan Libm.PI Libm.TWO_PI true 44100
                  (CallSetResonance 1000 0.9 true)
                (run Libm.cos Libm.tan Libm.PI Libm.TWO_PI true 44100
                     (CallSetCoefficients 2 3 4 5 6 true) BiQuad_new))))).

(** ** Calls and histories *)

(** Whether a build with [_STK_DEBUG_] sends a call of [setResonance] back:
    the four comparisons of its two tests. *)
Definition resonance_rejected (STK_DEBUG : bool)
    (srate frequency radius : StkFloat) : bool :=
  STK_DEBUG &&
  ((frequency <? 0) || (0.5 * srate <? frequency) || (radius <? 0) || (1 <=? radius)).

(** The same for [setNotch]: the three comparisons of its two tests. *)
Definition notch_rejected (STK_DEBUG : bool)
    (srate frequency radius : StkFloat) : bool :=
  STK_DEBUG && ((frequency <? 0) || (0.5 * srate <? frequency) || (radius <? 0)).

(** Whether a call is sent back at a test of its arguments. *)
Definition call_rejected (STK_DEBUG : bool) (srate : StkFloat) (c : call) : bool :=
  match c with
  | CallSetResonance frequency radius _ =>
      resonance_rejected STK_DEBUG srate frequency radius
  | CallSetNotch frequency radius =>
      notch_rejected STK_DEBUG srate frequency radius
  | CallSetFilterType _ frequency Q => rejected STK_DEBUG frequency Q
  | _ => false
  end.

(** The calls that assign all five coefficients. *)
Definition assigns_all (c : call) : bool :=
  match c with
  | CallSetCoefficients _ _ _ _ _ _ => true
  | CallSetResonance _ _ normalize => normalize
  | CallSetFilterType filterType _ _ => recognized filterType
  | _ => false
  end.

(** The calls that ask for the delay lines to be reset. *)
Definition resets_state (c : call) : bool :=
  match c with
  | CallSetCoefficients _ _ _ _ _ clearState => clearState
  | _ => false
  end.

(** The calls of a history that ask for it. *)
Definition resetting_calls (h : list (StkFloat * call)) : list (StkFloat * call) :=
  List.filter (fun rc => resets_state (snd rc)) h.

Definition is_rate_change (c : call) : bool :=
  match c with
  | CallSampleRateChanged _ _ => true
  | _ => false
  end.

(** A history: the calls made on an object, first to last, each with the
    sample rate in force when it is made. *)
Definition history : Type := list (StkFloat * call).

Definition run_history (cos tan : StkFloat -> StkFloat) (PI TWO_PI : StkFloat)
    (STK_DEBUG : bool) (h : history) (s : BiQuad) : BiQuad :=
  fold_left (fun s rc => run cos tan PI TWO_PI STK_DEBUG (fst rc) (snd rc) s) h s.

(** The numerator [b0 + b1/z + b2/z^2] at [z = 1] and at [z = -1], summed
    left to right in binary64, is zero: the response has a zero at the
    frequency 0 and one at the Nyquist frequency. *)
Definition zeros_at_dc_and_nyquist (s : BiQuad) : Prop :=
  get_b 0 s + get_b 1 s + get_b 2 s = 0 /\
  get_b 0 s - get_b 1 s + get_b 2 s = 0.

(** The events a method of this class can add to a trace. *)
Definition is_clear_or_warning (e : event) : bool :=
  is_clear e || is_warning e.

(** ** Comparisons of binary64 numbers *)

Lemma SFcompare_antisym (x y : spec_float) :
  SFcompare y x = option_map CompOpp (SFcompare x y).
Proof.
  destruct x as [sx|sx| |sx mx ex], y as [sy|sy| |sy my ey]; simpl;
    try destruct sx; try destruct sy; try reflexivity;
    rewrite (Z.compare_antisym ex ey); destruct (ex ?= ey)%Z; simpl;
    try reflexivity;
    pose proof (Pos.compare_cont_antisym mx my Eq) as Hm; simpl in Hm;
    rewrite <- Hm, ?CompOpp_involutive; reflexivity.
Qed.

(** [x <= y] excludes [y < x]. *)
Lemma ltb_false_of_leb (x y : float) : (x <=? y) = true -> (y <? x) = false.
Proof.
  rewrite FloatAxioms.leb_spec, FloatAxioms.ltb_spec. unfold SFleb, SFltb.
  rewrite (SFcompare_antisym (Prim2SF x) (Prim2SF y)).
  destruct (SFcompare (Prim2SF x) (Prim2SF y)) as [[ | | ]|]; simpl;
    intros H; try reflexivity; discriminate H.
Qed.

(** [x < y] excludes [y <= x] and [y < x]. *)
Lemma leb_false_of_ltb (x y : float) : (x <? y) = true -> (y <=? x) = false.
Proof.
  rewrite FloatAxioms.leb_spec, FloatAxioms.ltb_spec. unfold SFleb, SFltb.
  rewrite (SFcompare_antisym (Prim2SF x) (Prim2SF y)).
  destruct (SFcompare (Prim2SF x) (Prim2SF y)) as [[ | | ]|]; simpl;
    intros H; try reflexivity; discriminate H.
Qed.

Lemma ltb_false_of_ltb (x y : float) : (x <? y) = true -> (y <? x) = false.
Proof.
  rewrite !FloatAxioms.ltb_spec. unfold SFltb.
  rewrite (SFcompare_antisym (Prim2SF x) (Prim2SF y)).
  destruct (SFcompare (Prim2SF x) (Prim2SF y)) as [[ | | ]|]; simpl;
    intros H; try reflexivity; discriminate H.
Qed.


(** A NaN is below no number and above none: the tests of a build with
    [_STK_DEBUG_], which are comparisons, let a NaN argument through, and
    such an argument is neither in nor out of a range as defined above. *)
Lemma nan_unordered (x : float) :
  (nan <? x) = false /\ (x <? nan) = false /\
  (nan <=? x) = false /\ (x <=? nan) = false.
Proof.
  rewrite !FloatAxioms.ltb_spec, !FloatAxioms.leb_spec.
  change (Prim2SF nan) with S754_nan.
  unfold SFltb, SFleb.
  destruct (Prim2SF x); repeat split; reflexivity.
Qed.

(** ** Proof tools *)

(** A well-formed object, taken apart into its three [b_] and three [a_]
    entries. *)
Ltac open_object s H :=
  let b := fresh "b" in
  let a := fresh "a" in
  let Hb := fresh "Hb" in
  let Ha := fresh "Ha" in
  destruct s as [b a ? ? ? ? ?];
  destruct H as [Hb Ha]; simpl in Hb, Ha;
  destruct b as [|? [|? [|? [|? ?]]]]; try discriminate Hb;
  destruct a as [|? [|? [|? [|? ?]]]]; try discriminate Ha;
  clear Hb Ha.

Lemma wf_new : wf BiQuad_new.
Proof. split; reflexivity. Qed.

(** ** setEqualGainZeroes, setCoefficients *)

(** C9. From every object, whatever its coefficients and whatever the sample
    rate (the method does not read it), [setEqualGainZeroes] leaves
    [b0 = 1], [b1 = 0], [b2 = -1] exactly, leaves the [a_] vector as it was,
    and makes no call to the warning sink or any other collaborator. *)
Theorem setEqualGainZeroes_spec (s : BiQuad) :
  wf s ->
  let s' := setEqualGainZeroes s in
  get_b 0 s' = 1 /\ get_b 1 s' = 0 /\ get_b 2 s' = -1 /\
  get_a 1 s' = get_a 1 s /\ get_a 2 s' = get_a 2 s /\
  a_ s' = a_ s /\ trace s' = trace s.
Proof.
  intros H. open_object s H. cbn. repeat split; reflexivity.
Qed.

Lemma setEqualGainZeroes_spec_witness :
  wf sample_object /\
  get_b 0 (setEqualGainZeroes sample_object) = 1 /\
  get_b 1 (setEqualGainZeroes sample_object) = 0 /\
  get_b 2 (setEqualGainZeroes sample_object) = -1 /\
  get_a 1 (setEqualGainZeroes sample_object) = -1.5 /\
  get_a 2 (setEqualGainZeroes sample_object) = 0.9 /\
  a_ (setEqualGainZeroes sample_object) = [1; -1.5; 0.9] /\
  trace (setEqualGainZeroes sample_object) = [EvAddSampleRateAlert].
Proof.
  split; [split; reflexivity|].
  apply (setEqualGainZeroes_spec sample_object). split; reflexivity.
Defined.

(** C7. [setCoefficients] stores exactly the five values it is given,
    whatever they are (nothing is compared or tested, and [a_[0]] is not
    written), and makes no call to the warning sink; it resets the state of
    the filter exactly once when [clearState] is true and not at all when it
    is false. *)
Theorem setCoefficients_spec (b0 b1 b2 a1 a2 : StkFloat) (clearState : bool)
    (s : BiQuad) :
  wf s ->
  let s' := setCoefficients b0 b1 b2 a1 a2 clearState s in
  coefficients s' = [b0; b1; b2; a1; a2] /\
  get_a 0 s' = get_a 0 s /\
  trace s' = trace s ++ (if clearState then [EvClear] else []) /\
  clears (trace s') = (clears (trace s) + (if clearState then 1 else 0))%nat /\
  warnings (trace s') = warnings (trace s).
Proof.
  intros H. open_object s H.
  unfold clears, warnings.
  destruct clearState; cbn -[filter];
    rewrite ?filter_app, ?length_app, ?app_nil_r, ?Nat.add_0_r;
    repeat split; reflexivity.
Qed.

Lemma setCoefficients_spec_witness :
  wf sample_object /\
  coefficients (setCoefficients 1 2 nan infinity (-0) true sample_object)
    = [1; 2; nan; infinity; -0] /\
  get_a 0 (setCoefficients 1 2 nan infinity (-0) true sample_object)
    = get_a 0 sample_object /\
  trace (setCoefficients 1 2 nan infinity (-0) true sample_object)
    = trace sample_object ++ [EvClear] /\
  clears (trace (setCoefficients 1 2 nan infinity (-0) true sample_object))
    = (clears (trace sample_object) + 1)%nat /\
  warnings (trace (setCoefficients 1 2 nan infinity (-0) true sample_object))
    = warnings (trace sample_object).
Proof.
  split; [split; reflexivity|].
  apply (setCoefficients_spec 1 2 nan infinity (-0) true sample_object).
  split; reflexivity.
Defined.

(** ** setResonance, setNotch *)

(** In a build with [_STK_DEBUG_] the range tests of [setResonance] all fail
    for arguments in range (and in a build without it there are none). *)
Lemma setResonance_checks_pass (STK_DEBUG : bool) (srate frequency radius : StkFloat) :
  frequency_in_range srate frequency ->
  pole_radius_in_range radius ->
  STK_DEBUG && ((frequency <? 0) || (0.5 * srate <? frequency)) = false /\
  STK_DEBUG && ((radius <? 0) || (1 <=? radius)) = false.
Proof.
  intros [Hf0 Hf1] [Hr0 Hr1].
  rewrite (ltb_false_of_leb _ _ Hf0), (ltb_false_of_leb _ _ Hf1),
    (ltb_false_of_leb _ _ Hr0), (leb_false_of_ltb _ _ Hr1).
  split; apply andb_false_r.
Qed.

(** C3. For a frequency in [[0, Nyquist]] and a radius in [[0, 1)],
    [setResonance] leaves [a2 = radius * radius] and
    [a1 = -2 * radius * cos (TWO_PI * frequency / srate)]; with [normalize]
    it also leaves [b0 = 0.5 - 0.5 * a2], [b1 = 0] and [b2 = -b0], and
    without it the [b_] vector is as it was.  No warning is made.  In
    particular, at the rate 44100, [setResonance (1000, 0.9, true)] on a new
    object leaves [a2 = 0.81] and [a1 = -1.8 * cos (TWO_PI * 1000 / 44100)]. *)
Theorem setResonance_spec (cos : StkFloat -> StkFloat) (TWO_PI : StkFloat)
    (STK_DEBUG : bool) :
  (forall (srate frequency radius : StkFloat) (normalize : bool) (s : BiQuad),
      wf s ->
      frequency_in_range srate frequency ->
      pole_radius_in_range radius ->
      let s' := setResonance cos TWO_PI STK_DEBUG srate frequency radius normalize s in
      get_a 2 s' = radius * radius /\
      get_a 1 s' = -2 * radius * cos (TWO_PI * frequency / srate) /\
      (if normalize
       then get_b 0 s' = 0.5 - 0.5 * get_a 2 s' /\
            get_b 1 s' = 0 /\
            get_b 2 s' = - get_b 0 s'
       else b_ s' = b_ s) /\
      trace s' = trace s) /\
  (let s' := setResonance cos TWO_PI STK_DEBUG 44100 1000 0.9 true BiQuad_new in
   get_a 2 s' = 0.81 /\
   get_a 1 s' = -1.8 * cos (TWO_PI * 1000 / 44100)).
Proof.
  split.
  - intros srate frequency radius normalize s H Hf Hr.
    destruct (setResonance_checks_pass STK_DEBUG srate frequency radius Hf Hr)
      as [E1 E2].
    unfold setResonance. rewrite E1, E2.
    open_object s H. destruct normalize; cbn; repeat split; reflexivity.
  - destruct STK_DEBUG; split; reflexivity.
Qed.

Lemma setResonance_spec_witness :
  wf BiQuad_new /\
  frequency_in_range 44100 1000 /\
  pole_radius_in_range 0.9 /\
  get_a 2 (setResonance Libm.cos Libm.TWO_PI true 44100 1000 0.9 true BiQuad_new)
    = 0.9 * 0.9 /\
  get_a 1 (setResonance Libm.cos Libm.TWO_PI true 44100 1000 0.9 true BiQuad_new)
    = -2 * 0.9 * Libm.cos (Libm.TWO_PI * 1000 / 44100) /\
  (get_b 0 (setResonance Libm.cos Libm.TWO_PI true 44100 1000 0.9 true BiQuad_new)
     = 0.5 - 0.5 * get_a 2 (setResonance Libm.cos Libm.TWO_PI true 44100 1000 0.9 true BiQuad_new) /\
   get_b 1 (setResonance Libm.cos Libm.TWO_PI true 44100 1000 0.9 true BiQuad_new)
     = 0 /\
   get_b 2 (setResonance Libm.cos Libm.TWO_PI true 44100 1000 0.9 true BiQuad_new)
     = - get_b 0 (setResonance Libm.cos Libm.TWO_PI true 44100 1000 0.9 true BiQuad_new)) /\
  trace (setResonance Libm.cos Libm.TWO_PI true 44100 1000 0.9 true BiQuad_new)
    = trace BiQuad_new.
Proof.
  assert (Hw : wf BiQuad_new) by (split; reflexivity).
  assert (Hf : frequency_in_range 44100 1000) by (split; reflexivity).
  assert (Hr : pole_radius_in_range 0.9) by (split; reflexivity).
  repeat (split; [assumption|]).
  exact (proj1 (setResonance_spec Libm.cos Libm.TWO_PI true)
               44100 1000 0.9 true BiQuad_new Hw Hf Hr).
Defined.

(** In a build with [_STK_DEBUG_] the tests of [setNotch] fail for a
    frequency in range and a radius that is not negative. *)
Lemma setNotch_checks_pass (STK_DEBUG : bool) (srate frequency radius : StkFloat) :
  frequency_in_range srate frequency ->
  (0 <=? radius) = true ->
  STK_DEBUG && ((frequency <? 0) || (0.5 * srate <? frequency)) = false /\
  STK_DEBUG && (radius <? 0) = false.
Proof.
  intros [Hf0 Hf1] Hr0.
  rewrite (ltb_false_of_leb _ _ Hf0), (ltb_false_of_leb _ _ Hf1),
    (ltb_false_of_leb _ _ Hr0).
  split; apply andb_false_r.
Qed.

(** C5. For a frequency in [[0, Nyquist]] and a radius that is not negative,
    [setNotch] leaves [b2 = radius * radius] and
    [b1 = -2 * radius * cos (TWO_PI * frequency / srate)], and leaves [b0]
    and the [a_] vector (so [a1] and [a2]) as they were: the gain is not
    normalized.  No warning is made. *)
Theorem setNotch_spec (cos : StkFloat -> StkFloat) (TWO_PI : StkFloat)
    (STK_DEBUG : bool) (srate frequency radius : StkFloat) (s : BiQuad) :
  wf s ->
  frequency_in_range srate frequency ->
  (0 <=? radius) = true ->
  let s' := setNotch cos TWO_PI STK_DEBUG srate frequency radius s in
  get_b 2 s' = radius * radius /\
  get_b 1 s' = -2 * radius * cos (TWO_PI * frequency / srate) /\
  get_b 0 s' = get_b 0 s /\
  get_a 1 s' = get_a 1 s /\
  get_a 2 s' = get_a 2 s /\
  a_ s' = a_ s /\
  trace s' = trace s.
Proof.
  intros H Hf Hr.
  destruct (setNotch_checks_pass STK_DEBUG srate frequency radius Hf Hr)
    as [E1 E2].
  unfold setNotch. rewrite E1, E2.
  open_object s H. cbn. repeat split; reflexivity.
Qed.

Lemma setNotch_spec_witness :
  wf sample_object /\
  frequency_in_range 48000 440 /\
  (0 <=? 1.25) = true /\
  get_b 2 (setNotch Libm.cos Libm.TWO_PI true 48000 440 1.25 sample_object)
    = 1.25 * 1.25 /\
  get_b 1 (setNotch Libm.cos Libm.TWO_PI true 48000 440 1.25 sample_object)
    = -2 * 1.25 * Libm.cos (Libm.TWO_PI * 440 / 48000) /\
  get_b 0 (setNotch Libm.cos Libm.TWO_PI true 48000 440 1.25 sample_object)
    = get_b 0 sample_object /\
  get_a 1 (setNotch Libm.cos Libm.TWO_PI true 48000 440 1.25 sample_object)
    = get_a 1 sample_object /\
  get_a 2 (setNotch Libm.cos Libm.TWO_PI true 48000 440 1.25 sample_object)
    = get_a 2 sample_object /\
  a_ (setNotch Libm.cos Libm.TWO_PI true 48000 440 1.25 sample_object)
    = a_ sample_object /\
  trace (setNotch Libm.cos Libm.TWO_PI true 48000 440 1.25 sample_object)
    = trace sample_object.
Proof.
  assert (Hw : wf sample_object) by (split; reflexivity).
  assert (Hf : frequency_in_range 48000 440) by (split; reflexivity).
  assert (Hr : (0 <=? 1.25) = true) by reflexivity.
  repeat (split; [assumption|]).
  exact (setNotch_spec Libm.cos Libm.TWO_PI true 48000 440 1.25 sample_object
                       Hw Hf Hr).
Defined.

(** C6. In a build with [_STK_DEBUG_], [setResonance] called with a
    frequency outside [[0, Nyquist]] or a radius outside [[0, 1)], and
    [setNotch] called with a frequency outside [[0, Nyquist]] or a negative
    radius, make one call to the warning sink, of type [WARNING], and return
    with both coefficient vectors, so all five coefficients, as they were. *)
Theorem debug_checks_reject (cos : StkFloat -> StkFloat) (TWO_PI : StkFloat) :
  (forall (srate frequency radius : StkFloat) (normalize : bool) (s : BiQuad),
      frequency_out_of_range srate frequency \/ pole_radius_out_of_range radius ->
      let s' := setResonance cos TWO_PI true srate frequency radius normalize s in
      b_ s' = b_ s /\ a_ s' = a_ s /\ coefficients s' = coefficients s /\
      exists message, trace s' = trace s ++ [EvError message WARNING]) /\
  (forall (srate frequency radius : StkFloat) (s : BiQuad),
      frequency_out_of_range srate frequency \/ (radius <? 0) = true ->
      let s' := setNotch cos TWO_PI true srate frequency radius s in
      b_ s' = b_ s /\ a_ s' = a_ s /\ coefficients s' = coefficients s /\
      exists message, trace s' = trace s ++ [EvError message WARNING]).
Proof.
  split.
  - intros srate frequency radius normalize s.
    unfold frequency_out_of_range, pole_radius_out_of_range, setResonance.
    destruct (frequency <? 0), (0.5 * srate <? frequency);
      cbn [andb orb]; intros H;
      try (repeat split; eexists; reflexivity).
    revert H.
    destruct (radius <? 0), (1 <=? radius);
      cbn [andb orb]; intros H;
      try (repeat split; eexists; reflexivity).
    destruct H as [[H|H]|[H|H]]; discriminate H.
  - intros srate frequency radius s.
    unfold frequency_out_of_range, setNotch.
    destruct (frequency <? 0), (0.5 * srate <? frequency);
      cbn [andb orb]; intros H;
      try (repeat split; eexists; reflexivity).
    revert H.
    destruct (radius <? 0);
      cbn [andb orb]; intros H;
      try (repeat split; eexists; reflexivity).
    destruct H as [[H|H]|H]; discriminate H.
Qed.

Lemma debug_checks_reject_witness :
  (pole_radius_out_of_range 1.5 /\
   coefficients (setResonance Libm.cos Libm.TWO_PI true 44100 1000 1.5 true sample_object)
     = coefficients sample_object /\
   exists message,
     trace (setResonance Libm.cos Libm.TWO_PI true 44100 1000 1.5 true sample_object)
       = trace sample_object ++ [EvError message WARNING]) /\
  (frequency_out_of_range 44100 (-10) /\
   coefficients (setNotch Libm.cos Libm.TWO_PI true 44100 (-10) 0.5 sample_object)
     = coefficients sample_object /\
   exists message,
     trace (setNotch Libm.cos Libm.TWO_PI true 44100 (-10) 0.5 sample_object)
       = trace sample_object ++ [EvError message WARNING]).
Proof.
  assert (Hr : pole_radius_out_of_range 1.5) by (right; reflexivity).
  assert (Hf : frequency_out_of_range 44100 (-10)) by (left; reflexivity).
  split; (split; [assumption|]).
  - exact (proj2 (proj2
      (proj1 (debug_checks_reject Libm.cos Libm.TWO_PI)
             44100 1000 1.5 true sample_object (or_intror Hr)))).
  - exact (proj2 (proj2
      (proj2 (debug_checks_reject Libm.cos Libm.TWO_PI)
             44100 (-10) 0.5 sample_object (or_introl Hf)))).
Defined.

(** ** setFilterType *)

Lemma setFilterType_not_rejected (tan : StkFloat -> StkFloat) (PI : StkFloat)
    (STK_DEBUG : bool) (srate : StkFloat) (t : FilterType)
    (frequency Q : StkFloat) (s : BiQuad) :
  rejected STK_DEBUG frequency Q = false ->
  setFilterType tan PI STK_DEBUG srate t frequency Q s =
  setFilterType tan PI false srate t frequency Q s.
Proof.
  unfold rejected, setFilterType.
  destruct STK_DEBUG, (frequency <? 0), (Q <? 0); cbn [andb orb];
    intros H; try discriminate H; reflexivity.
Qed.


(** Two binary64 numbers that the comparison tells apart, the first not a
    NaN, are different numbers. *)
Lemma neq_of_eqb_false (x y : float) :
  (x =? y) = false -> (x =? x) = true -> x <> y.
Proof. intros H1 H2 E. rewrite <- E in H1. congruence. Qed.

(** C4. For one of the five filter types, a frequency that is not negative
    and a positive Q, [setFilterType] leaves [a1 = 2*Q*(kSqr - 1)*denom] and
    [a2 = (kSqr*Q - K + Q)*denom], where [K = tan (PI*frequency/srate)],
    [kSqr = K*K] and [denom = 1/(kSqr*Q + K + Q)], and the numerator of the
    type's row of the table; no warning is made. *)
Theorem setFilterType_spec (tan : StkFloat -> StkFloat) (PI : StkFloat)
    (STK_DEBUG : bool) (srate : StkFloat) (t : FilterType)
    (frequency Q : StkFloat) (s : BiQuad) :
  wf s ->
  recognized t = true ->
  (0 <=? frequency) = true ->
  (0 <? Q) = true ->
  let K := tan (PI * frequency / srate) in
  let kSqr := K * K in
  let denom := 1 / (kSqr * Q + K + Q) in
  let s' := setFilterType tan PI STK_DEBUG srate t frequency Q s in
  get_a 1 s' = 2 * Q * (kSqr - 1) * denom /\
  get_a 2 s' = (kSqr * Q - K + Q) * denom /\
  match t with
  | LowPass =>
      get_b 0 s' = kSqr * Q * denom /\
      get_b 1 s' = 2 * get_b 0 s' /\
      get_b 2 s' = get_b 0 s'
  | HighPass =>
      get_b 0 s' = Q * denom /\
      get_b 1 s' = -2 * get_b 0 s' /\
      get_b 2 s' = get_b 0 s'
  | BandPass =>
      get_b 0 s' = K * denom /\
      get_b 1 s' = 0 /\
      get_b 2 s' = - get_b 0 s'
  | BandReject =>
      get_b 0 s' = Q * (kSqr + 1) * denom /\
      get_b 1 s' = 2 * Q * (kSqr - 1) * denom /\
      get_b 2 s' = get_b 0 s'
  | AllPass =>
      get_b 0 s' = get_a 2 s' /\
      get_b 1 s' = get_a 1 s' /\
      get_b 2 s' = 1
  | Unrecognized _ => True
  end /\
  trace s' = trace s.
Proof.
  intros H Ht Hf HQ K kSqr denom.
  rewrite setFilterType_not_rejected.
  - subst K kSqr denom. open_object s H.
    destruct t; try discriminate Ht; cbn; repeat split; reflexivity.
  - unfold rejected.
    rewrite (ltb_false_of_leb _ _ Hf), (ltb_false_of_ltb _ _ HQ).
    apply andb_false_r.
Qed.

Lemma setFilterType_spec_witness :
  wf sample_object /\
  recognized BandReject = true /\
  (0 <=? 1000) = true /\
  (0 <? 0.707) = true /\
  let K := Libm.tan (Libm.PI * 1000 / 44100) in
  let kSqr := K * K in
  let denom := 1 / (kSqr * 0.707 + K + 0.707) in
  let s' := setFilterType Libm.tan Libm.PI true 44100 BandReject 1000 0.707
                          sample_object in
  get_a 1 s' = 2 * 0.707 * (kSqr - 1) * denom /\
  get_a 2 s' = (kSqr * 0.707 - K + 0.707) * denom /\
  (get_b 0 s' = 0.707 * (kSqr + 1) * denom /\
   get_b 1 s' = 2 * 0.707 * (kSqr - 1) * denom /\
   get_b 2 s' = get_b 0 s') /\
  trace s' = trace sample_object.
Proof.
  assert (Hw : wf sample_object) by (split; reflexivity).
  do 4 (split; [first [assumption | reflexivity]|]).
  exact (setFilterType_spec Libm.tan Libm.PI true 44100 BandReject 1000 0.707
                            sample_object Hw eq_refl eq_refl eq_refl).
Defined.

(** The messages of the two tests of [setFilterType]. *)
Lemma setFilterType_rejected (tan : StkFloat -> StkFloat) (PI : StkFloat)
    (STK_DEBUG : bool) (srate : StkFloat) (t : FilterType)
    (frequency Q : StkFloat) (s : BiQuad) :
  rejected STK_DEBUG frequency Q = true ->
  let s' := setFilterType tan PI STK_DEBUG srate t frequency Q s in
  b_ s' = b_ s /\ a_ s' = a_ s /\
  trace s' =
  trace s ++
  [EvError
     (oStream_ s ++
      if frequency <? 0
      then [Text "BiQuad::setFilterType: frequency argument ("; Num frequency;
            Text ") is negative!"]
      else [Text "BiQuad::setFilterType: Q argument ("; Num Q;
            Text ") is negative!"])
     WARNING].
Proof.
  unfold rejected, setFilterType.
  destruct STK_DEBUG, (frequency <? 0), (Q <? 0); cbn [andb orb];
    intros H; try discriminate H;
    cbn; rewrite <- ?app_assoc; repeat split; reflexivity.
Qed.

(** What every call of [setFilterType] with a value that is none of the
    five filter types does keep: [b0], [b1] and [b2] are as they were and
    exactly one warning is made.  The warning is the one of the [default:]
    branch, unless a build with [_STK_DEBUG_] has sent the call back for a
    negative frequency or Q: then it is the warning about the frequency,
    when that is negative, and about Q otherwise, and the [a_] vector is as
    it was too. *)
Lemma setFilterType_unrecognized_keeps_b (tan : StkFloat -> StkFloat)
    (PI : StkFloat) (STK_DEBUG : bool) (srate : StkFloat) (v : Z)
    (frequency Q : StkFloat) (s : BiQuad) :
  let s' := setFilterType tan PI STK_DEBUG srate (Unrecognized v) frequency Q s in
  b_ s' = b_ s /\
  (rejected STK_DEBUG frequency Q = false ->
   trace s' = trace s ++ [EvError (oStream_ s ++ invalid_type_message) WARNING]) /\
  (rejected STK_DEBUG frequency Q = true ->
   a_ s' = a_ s /\
   trace s' =
   trace s ++
   [EvError
      (oStream_ s ++
       if frequency <? 0
       then [Text "BiQuad::setFilterType: frequency argument ("; Num frequency;
             Text ") is negative!"]
       else [Text "BiQuad::setFilterType: Q argument ("; Num Q;
             Text ") is negative!"])
      WARNING]).
Proof.
  cbv zeta. destruct (rejected STK_DEBUG frequency Q) eqn:E.
  - destruct (setFilterType_rejected tan PI STK_DEBUG srate (Unrecognized v)
                frequency Q s E) as (Hb & Ha & Ht).
    split; [exact Hb|].
    split; [intros H; discriminate H | intros _; split; [exact Ha | exact Ht]].
  - rewrite (setFilterType_not_rejected tan PI STK_DEBUG srate
               (Unrecognized v) frequency Q s E).
    split; [reflexivity|].
    split; [intros _; reflexivity | intros H; discriminate H].
Qed.

(** C1 is not what the code does. The specification has all five
    coefficients unchanged after a call with an unrecognized filter type;
    the code stores [a1] and [a2] before its [switch] reaches the
    [default:] branch, where the other tests of the arguments return before
    any store.  In a build with [_STK_DEBUG_], at the rate 44100, a new
    object called with an unrecognized type, the frequency 0 and Q = 1 keeps
    [b0], [b1], [b2] and makes the one warning about the type, but comes out
    with [a1 = -2] and [a2 = 1] where it had [a1 = 0] and [a2 = 0]. *)
Lemma setFilterType_unrecognized_changes_a1_a2 :
  coefficients BiQuad_new = [1; 0; 0; 0; 0] /\
  coefficients (setFilterType Libm.tan Libm.PI true 44100 (Unrecognized 7) 0 1
                              BiQuad_new) = [1; 0; 0; -2; 1] /\
  coefficients (setFilterType Libm.tan Libm.PI true 44100 (Unrecognized 7) 0 1
                              BiQuad_new) <> coefficients BiQuad_new /\
  trace (setFilterType Libm.tan Libm.PI true 44100 (Unrecognized 7) 0 1
                       BiQuad_new)
    = trace BiQuad_new ++ [EvError invalid_type_message WARNING].
Proof.
  split; [reflexivity|]. split; [reflexivity|]. split; [|reflexivity].
  intros H. apply (f_equal (fun l => nth 3 l 0)) in H.
  revert H. apply neq_of_eqb_false; reflexivity.
Qed.

(** C10, as the code has it. A call of [setFilterType] with a value that is
    none of the five filter types, which a build with [_STK_DEBUG_] does not
    send back for a negative frequency or Q, leaves [b0], [b1] and [b2] as
    they were and stores [a1 = 2*Q*(kSqr - 1)*denom] and
    [a2 = (kSqr*Q - K + Q)*denom], computed from the frequency and Q given,
    before it looks at the type. *)
Theorem setFilterType_unrecognized_writes_a (tan : StkFloat -> StkFloat)
    (PI : StkFloat) (STK_DEBUG : bool) (srate : StkFloat) (v : Z)
    (frequency Q : StkFloat) (s : BiQuad) :
  wf s ->
  rejected STK_DEBUG frequency Q = false ->
  let K := tan (PI * frequency / srate) in
  let kSqr := K * K in
  let denom := 1 / (kSqr * Q + K + Q) in
  let s' := setFilterType tan PI STK_DEBUG srate (Unrecognized v) frequency Q s in
  get_b 0 s' = get_b 0 s /\ get_b 1 s' = get_b 1 s /\ get_b 2 s' = get_b 2 s /\
  get_a 1 s' = 2 * Q * (kSqr - 1) * denom /\
  get_a 2 s' = (kSqr * Q - K + Q) * denom.
Proof.
  intros H E K kSqr denom.
  rewrite (setFilterType_not_rejected tan PI STK_DEBUG srate (Unrecognized v)
             frequency Q s E).
  subst K kSqr denom. open_object s H. cbn. repeat split; reflexivity.
Qed.

Lemma setFilterType_unrecognized_writes_a_witness :
  wf sample_object /\
  rejected true 1000 0.707 = false /\
  let K := Libm.tan (Libm.PI * 1000 / 44100) in
  let kSqr := K * K in
  let denom := 1 / (kSqr * 0.707 + K + 0.707) in
  let s' := setFilterType Libm.tan Libm.PI true 44100 (Unrecognized 7) 1000 0.707
                          sample_object in
  get_b 0 s' = get_b 0 sample_object /\
  get_b 1 s' = get_b 1 sample_object /\
  get_b 2 s' = get_b 2 sample_object /\
  get_a 1 s' = 2 * 0.707 * (kSqr - 1) * denom /\
  get_a 2 s' = (kSqr * 0.707 - K + 0.707) * denom.
Proof.
  assert (Hw : wf sample_object) by (split; reflexivity).
  do 2 (split; [first [assumption | reflexivity]|]).
  exact (setFilterType_unrecognized_writes_a Libm.tan Libm.PI true 44100 7
           1000 0.707 sample_object Hw eq_refl).
Defined.

(** C10 fails as stated for "every call": in a build with [_STK_DEBUG_] the
    call with the frequency -1 is sent back at the first test, and [a1] and
    [a2] stay 0 where the formulas give about -2.00014 and 1.00014. *)
Lemma setFilterType_unrecognized_rejected_keeps_a :
  a_ (setFilterType Libm.tan Libm.PI true 44100 (Unrecognized 7) (-1) 1 BiQuad_new)
    = a_ BiQuad_new /\
  ~ (let K := Libm.tan (Libm.PI * (-1) / 44100) in
     let kSqr := K * K in
     let denom := 1 / (kSqr * 1 + K + 1) in
     let s' := setFilterType Libm.tan Libm.PI true 44100 (Unrecognized 7) (-1) 1
                             BiQuad_new in
     get_b 0 s' = get_b 0 BiQuad_new /\
     get_b 1 s' = get_b 1 BiQuad_new /\
     get_b 2 s' = get_b 2 BiQuad_new /\
     get_a 1 s' = 2 * 1 * (kSqr - 1) * denom /\
     get_a 2 s' = (kSqr * 1 - K + 1) * denom).
Proof.
  split; [reflexivity|].
  intros (_ & _ & _ & H & _).
  revert H. apply neq_of_eqb_false; reflexivity.
Qed.

(** *** Q = 0 *)

(** A finite binary64 number is a zero or has a mantissa and an exponent. *)
Lemma is_finite_inv (x : float) :
  is_finite x = true ->
  (exists sx, Prim2SF x = S754_zero sx) \/
  (exists sx m e, Prim2SF x = S754_finite sx m e).
Proof.
  unfold is_finite, is_nan, is_infinity.
  rewrite !FloatAxioms.eqb_spec, abs_spec.
  change (Prim2SF infinity) with (S754_infinity false).
  destruct (Prim2SF x) as [sx|sx| |sx m e]; intros H.
  - left. exists sx. reflexivity.
  - destruct sx; discriminate H.
  - discriminate H.
  - right. exists sx, m, e. reflexivity.
Qed.

Lemma Prim2SF_inj (x y : float) : Prim2SF x = Prim2SF y -> x = y.
Proof.
  intros H. rewrite <- (SF2Prim_Prim2SF x), <- (SF2Prim_Prim2SF y), H.
  reflexivity.
Qed.





(** ** The leading denominator coefficient *)

(** No call writes [a_[0]]. *)
Lemma run_keeps_a0 (cos tan : StkFloat -> StkFloat) (PI TWO_PI : StkFloat)
    (STK_DEBUG : bool) (srate : StkFloat) (c : call) (s : BiQuad) :
  a_ (run cos tan PI TWO_PI STK_DEBUG srate c s) !! 0%nat = a_ s !! 0%nat.
Proof.
  destruct s as [b a i o os ig tr].
  destruct c as [b0 b1 b2 a1 a2 cs|f r n|f r|t f Q| |nr or|ig'];
    cbn [run];
    unfold setCoefficients, setResonance, setNotch, setFilterType,
      setEqualGainZeroes, sampleRateChanged, ignoreSampleRateChange;
    repeat match goal with
           | |- context [if ?b then _ else _] => destruct b
           end;
    try destruct t; destruct a as [|a0 a']; reflexivity.
Qed.

(** Every call keeps the coefficient vectors three entries long. *)
Lemma run_keeps_wf (cos tan : StkFloat -> StkFloat) (PI TWO_PI : StkFloat)
    (STK_DEBUG : bool) (srate : StkFloat) (c : call) (s : BiQuad) :
  wf s -> wf (run cos tan PI TWO_PI STK_DEBUG srate c s).
Proof.
  intros H. open_object s H.
  destruct c as [b0 b1 b2 a1 a2 cs|f r n|f r|t f Q| |nr or|ig'];
    cbn [run];
    unfold setCoefficients, setResonance, setNotch, setFilterType,
      setEqualGainZeroes, sampleRateChanged, ignoreSampleRateChange;
    repeat match goal with
           | |- context [if ?b then _ else _] => destruct b
           end;
    try destruct t; split; reflexivity.
Qed.

Lemma reachable_wf (cos tan : StkFloat -> StkFloat) (PI TWO_PI : StkFloat)
    (STK_DEBUG : bool) (s : BiQuad) :
  reachable cos tan PI TWO_PI STK_DEBUG s -> wf s.
Proof.
  induction 1 as [|srate c s Hs IH]; [apply wf_new | apply run_keeps_wf, IH].
Qed.

(** C8. The constructor sets [a_[0]] to exactly 1; no call ([setCoefficients],
    [setResonance], [setNotch], [setFilterType], [setEqualGainZeroes], the
    reaction to a change of the sample rate) writes it; so [a0 = 1] in every
    object a program can reach. *)
Theorem a0_is_one (cos tan : StkFloat -> StkFloat) (PI TWO_PI : StkFloat)
    (STK_DEBUG : bool) :
  get_a 0 BiQuad_new = 1 /\
  (forall (srate : StkFloat) (c : call) (s : BiQuad),
      get_a 0 (run cos tan PI TWO_PI STK_DEBUG srate c s) = get_a 0 s) /\
  (forall s : BiQuad,
      reachable cos tan PI TWO_PI STK_DEBUG s ->
      a_ s !! 0%nat = Some 1 /\ get_a 0 s = 1).
Proof.
  split; [reflexivity|]. split.
  - intros srate c s. unfold get_a, vec_get. rewrite run_keeps_a0. reflexivity.
  - intros s Hs.
    assert (H : a_ s !! 0%nat = Some 1).
    { induction Hs as [|srate c s Hs IH]; [reflexivity|].
      rewrite run_keeps_a0. exact IH. }
    split; [exact H|]. unfold get_a, vec_get. rewrite H. reflexivity.
Qed.

Lemma a0_is_one_witness :
  reachable Libm.cos Libm.tan Libm.PI Libm.TWO_PI true sample_history /\
  a_ sample_history !! 0%nat = Some 1 /\
  get_a 0 sample_history = 1.
Proof.
  assert (H : reachable Libm.cos Libm.tan Libm.PI Libm.TWO_PI true sample_history)
    by (unfold sample_history; repeat apply reachable_run; apply reachable_new).
  split; [exact H|].
  exact (proj2 (proj2 (a0_is_one Libm.cos Libm.tan Libm.PI Libm.TWO_PI true))
               sample_history H).
Defined.

(** * Further properties of the methods *)

(** ** Tests of the arguments *)

Lemma setResonance_not_rejected (cos : StkFloat -> StkFloat) (TWO_PI : StkFloat)
    (STK_DEBUG : bool) (srate frequency radius : StkFloat) (normalize : bool)
    (s : BiQuad) :
  resonance_rejected STK_DEBUG srate frequency radius = false ->
  setResonance cos TWO_PI STK_DEBUG srate frequency radius normalize s =
  setResonance cos TWO_PI false srate frequency radius normalize s.
Proof.
  unfold resonance_rejected, setResonance.
  destruct STK_DEBUG, (frequency <? 0), (0.5 * srate <? frequency),
    (radius <? 0), (1 <=? radius); cbn [andb orb];
    intros H; try discriminate H; reflexivity.
Qed.

Lemma setNotch_not_rejected (cos : StkFloat -> StkFloat) (TWO_PI : StkFloat)
    (STK_DEBUG : bool) (srate frequency radius : StkFloat) (s : BiQuad) :
  notch_rejected STK_DEBUG srate frequency radius = false ->
  setNotch cos TWO_PI STK_DEBUG srate frequency radius s =
  setNotch cos TWO_PI false srate frequency radius s.
Proof.
  unfold notch_rejected, setNotch.
  destruct STK_DEBUG, (frequency <? 0), (0.5 * srate <? frequency),
    (radius <? 0); cbn [andb orb];
    intros H; try discriminate H; reflexivity.
Qed.

(** X1. In a build with [_STK_DEBUG_], [setFilterType] called with a
    negative frequency, or with a negative Q, returns with both coefficient
    vectors as they were and one warning more in the trace.  The frequency
    is tested first: the warning is about the frequency when it is negative,
    whatever Q is, and about Q otherwise.  The filter type is not looked
    at. *)
Theorem setFilterType_debug_rejects (tan : StkFloat -> StkFloat) (PI : StkFloat)
    (srate : StkFloat) (t : FilterType) (frequency Q : StkFloat) (s : BiQuad) :
  (frequency <? 0) = true \/ (Q <? 0) = true ->
  let s' := setFilterType tan PI true srate t frequency Q s in
  b_ s' = b_ s /\ a_ s' = a_ s /\
  trace s' =
  trace s ++
  [EvError
     (oStream_ s ++
      if frequency <? 0
      then [Text "BiQuad::setFilterType: frequency argument ("; Num frequency;
            Text ") is negative!"]
      else [Text "BiQuad::setFilterType: Q argument ("; Num Q;
            Text ") is negative!"])
     WARNING].
Proof.
  unfold setFilterType.
  destruct (frequency <? 0), (Q <? 0); cbn [andb orb]; intros H;
    try (destruct H as [H|H]; discriminate H);
    cbn; rewrite <- ?app_assoc; repeat split; reflexivity.
Qed.

Lemma setFilterType_debug_rejects_witness :
  ((-5 <? 0) = true \/ (-1 <? 0) = true) /\
  b_ (setFilterType Libm.tan Libm.PI true 44100 LowPass (-5) (-1) sample_object)
    = b_ sample_object /\
  a_ (setFilterType Libm.tan Libm.PI true 44100 LowPass (-5) (-1) sample_object)
    = a_ sample_object /\
  trace (setFilterType Libm.tan Libm.PI true 44100 LowPass (-5) (-1) sample_object)
    = trace sample_object ++
      [EvError [Text "BiQuad::setFilterType: frequency argument ("; Num (-5);
                Text ") is negative!"] WARNING].
Proof.
  assert (H : (-5 <? 0) = true \/ (-1 <? 0) = true) by (left; reflexivity).
  split; [exact H|].
  exact (setFilterType_debug_rejects Libm.tan Libm.PI 44100 LowPass (-5) (-1)
           sample_object H).
Defined.

(** X2. A build without [_STK_DEBUG_] tests no argument: [setResonance]
    and [setNotch] store their formulas for every frequency and radius, in
    range or not, and make no warning. *)
Theorem release_build_tests_nothing (cos : StkFloat -> StkFloat)
    (TWO_PI : StkFloat) (srate frequency radius : StkFloat) (normalize : bool)
    (s : BiQuad) :
  wf s ->
  let r := setResonance cos TWO_PI false srate frequency radius normalize s in
  let n := setNotch cos TWO_PI false srate frequency radius s in
  (get_a 2 r = radius * radius /\
   get_a 1 r = -2 * radius * cos (TWO_PI * frequency / srate) /\
   trace r = trace s) /\
  (get_b 2 n = radius * radius /\
   get_b 1 n = -2 * radius * cos (TWO_PI * frequency / srate) /\
   trace n = trace s).
Proof.
  intros H. open_object s H. destruct normalize; cbn; repeat split; reflexivity.
Qed.

Lemma release_build_tests_nothing_witness :
  wf sample_object /\
  (get_a 2 (setResonance Libm.cos Libm.TWO_PI false 44100 (-10) 1.5 false sample_object)
     = 1.5 * 1.5 /\
   get_a 1 (setResonance Libm.cos Libm.TWO_PI false 44100 (-10) 1.5 false sample_object)
     = -2 * 1.5 * Libm.cos (Libm.TWO_PI * (-10) / 44100) /\
   trace (setResonance Libm.cos Libm.TWO_PI false 44100 (-10) 1.5 false sample_object)
     = trace sample_object) /\
  (get_b 2 (setNotch Libm.cos Libm.TWO_PI false 44100 (-10) 1.5 sample_object)
     = 1.5 * 1.5 /\
   get_b 1 (setNotch Libm.cos Libm.TWO_PI false 44100 (-10) 1.5 sample_object)
     = -2 * 1.5 * Libm.cos (Libm.TWO_PI * (-10) / 44100) /\
   trace (setNotch Libm.cos Libm.TWO_PI false 44100 (-10) 1.5 sample_object)
     = trace sample_object).
Proof.
  assert (Hw : wf sample_object) by (split; reflexivity).
  split; [exact Hw|].
  exact (release_build_tests_nothing Libm.cos Libm.TWO_PI 44100 (-10) 1.5 false
           sample_object Hw).
Defined.

(** X3. The tests of a build with [_STK_DEBUG_] are comparisons, and a NaN
    fails every comparison: a NaN frequency or a NaN radius is not sent
    back.  [setResonance] and [setNotch] called with a NaN radius (and a
    frequency that is a NaN or in range) make no warning and store NaN in
    [a2], respectively [b2]; [setFilterType] called with a NaN frequency and
    a NaN Q and one of the five types makes no warning either. *)
Theorem debug_checks_let_nan_through (cos tan : StkFloat -> StkFloat)
    (PI TWO_PI : StkFloat) (srate frequency : StkFloat) (normalize : bool)
    (t : FilterType) (s : BiQuad) :
  wf s ->
  frequency = nan \/ frequency_in_range srate frequency ->
  let r := setResonance cos TWO_PI true srate frequency nan normalize s in
  let n := setNotch cos TWO_PI true srate frequency nan s in
  (get_a 2 r = nan /\ trace r = trace s) /\
  (get_b 2 n = nan /\ trace n = trace s) /\
  (recognized t = true ->
   trace (setFilterType tan PI true srate t nan nan s) = trace s).
Proof.
  intros H Hf.
  assert (E : resonance_rejected true srate frequency nan = false /\
              notch_rejected true srate frequency nan = false).
  { unfold resonance_rejected, notch_rejected.
    destruct (nan_unordered 0) as (E1 & _ & E2 & _).
    destruct (nan_unordered 1) as (_ & _ & _ & E3).
    rewrite E1, E3.
    destruct Hf as [-> | [Hf0 Hf1]].
    - destruct (nan_unordered 0) as (E4 & _).
      destruct (nan_unordered (0.5 * srate)) as (_ & E5 & _).
      rewrite E4, E5. split; reflexivity.
    - rewrite (ltb_false_of_leb _ _ Hf0), (ltb_false_of_leb _ _ Hf1).
      split; reflexivity. }
  destruct E as [Er En]. cbv zeta.
  rewrite (setResonance_not_rejected cos TWO_PI true srate frequency nan
             normalize s Er),
    (setNotch_not_rejected cos TWO_PI true srate frequency nan s En).
  rewrite (setFilterType_not_rejected tan PI true srate t nan nan s eq_refl).
  open_object s H. split; [|split].
  - destruct normalize; split; reflexivity.
  - split; reflexivity.
  - intros Ht. destruct t; try discriminate Ht; reflexivity.
Qed.

Lemma debug_checks_let_nan_through_witness :
  wf sample_object /\
  (get_a 2 (setResonance Libm.cos Libm.TWO_PI true 44100 nan nan true sample_object)
     = nan /\
   trace (setResonance Libm.cos Libm.TWO_PI true 44100 nan nan true sample_object)
     = trace sample_object) /\
  (get_b 2 (setNotch Libm.cos Libm.TWO_PI true 44100 nan nan sample_object) = nan /\
   trace (setNotch Libm.cos Libm.TWO_PI true 44100 nan nan sample_object)
     = trace sample_object) /\
  (recognized LowPass = true ->
   trace (setFilterType Libm.tan Libm.PI true 44100 LowPass nan nan sample_object)
     = trace sample_object).
Proof.
  assert (Hw : wf sample_object) by (split; reflexivity).
  split; [exact Hw|].
  exact (debug_checks_let_nan_through Libm.cos Libm.tan Libm.PI Libm.TWO_PI
           44100 nan true LowPass sample_object Hw (or_introl eq_refl)).
Defined.

(** ** The design of setFilterType *)

(** X4. The denominator that [setFilterType] leaves does not depend on the
    filter type: for the same frequency, Q and sample rate, any two types,
    recognized or not, leave the same [a_] vector, in every build. *)
Theorem setFilterType_denominator_any_type (tan : StkFloat -> StkFloat)
    (PI : StkFloat) (STK_DEBUG : bool) (srate : StkFloat) (t1 t2 : FilterType)
    (frequency Q : StkFloat) (s : BiQuad) :
  a_ (setFilterType tan PI STK_DEBUG srate t1 frequency Q s) =
  a_ (setFilterType tan PI STK_DEBUG srate t2 frequency Q s).
Proof.
  unfold setFilterType.
  destruct (STK_DEBUG && (frequency <? 0)); [reflexivity|].
  destruct (STK_DEBUG && (Q <? 0)); [reflexivity|].
  destruct t1, t2; reflexivity.
Qed.

Lemma reachable_a0 (cos tan : StkFloat -> StkFloat) (PI TWO_PI : StkFloat)
    (STK_DEBUG : bool) (s : BiQuad) :
  reachable cos tan PI TWO_PI STK_DEBUG s -> a_ s !! 0%nat = Some 1.
Proof.
  induction 1 as [|srate c s Hs IH]; [reflexivity|].
  rewrite run_keeps_a0. exact IH.
Qed.

(** X5. On an object that a program can reach, [setFilterType] with the
    type [AllPass], when the call is not sent back, leaves the numerator
    that is the denominator read backwards: [b_ = [a2; a1; a0]]. *)
Theorem setFilterType_AllPass_mirror (cos tan : StkFloat -> StkFloat)
    (PI TWO_PI : StkFloat) (STK_DEBUG : bool) (srate frequency Q : StkFloat)
    (s : BiQuad) :
  reachable cos tan PI TWO_PI STK_DEBUG s ->
  rejected STK_DEBUG frequency Q = false ->
  let s' := setFilterType tan PI STK_DEBUG srate AllPass frequency Q s in
  b_ s' = rev (a_ s').
Proof.
  intros Hs E.
  pose proof (reachable_wf cos tan PI TWO_PI STK_DEBUG s Hs) as H.
  pose proof (reachable_a0 cos tan PI TWO_PI STK_DEBUG s Hs) as H0.
  cbv zeta.
  rewrite (setFilterType_not_rejected tan PI STK_DEBUG srate AllPass frequency Q
             s E).
  open_object s H. cbn in H0. injection H0 as ->. reflexivity.
Qed.

Lemma setFilterType_AllPass_mirror_witness :
  reachable Libm.cos Libm.tan Libm.PI Libm.TWO_PI true sample_history /\
  rejected true 1000 0.707 = false /\
  b_ (setFilterType Libm.tan Libm.PI true 44100 AllPass 1000 0.707 sample_history)
    = rev (a_ (setFilterType Libm.tan Libm.PI true 44100 AllPass 1000 0.707
                             sample_history)).
Proof.
  assert (H : reachable Libm.cos Libm.tan Libm.PI Libm.TWO_PI true sample_history)
    by (unfold sample_history; repeat apply reachable_run; apply reachable_new).
  split; [exact H|]. split; [reflexivity|].
  exact (setFilterType_AllPass_mirror Libm.cos Libm.tan Libm.PI Libm.TWO_PI true
           44100 1000 0.707 sample_history H eq_refl).
Defined.

(** ** Zeros at 1 and -1 *)

(** In binary64, [x + 0 + (-x)] and [x - 0 + (-x)] are [+0] for every
    finite [x] (for an infinity or a NaN they are NaN). *)
Lemma add_zero_opp (x : float) :
  is_finite x = true -> x + 0 + - x = 0 /\ x - 0 + - x = 0.
Proof.
  intros Hfin.
  assert (Hadd : forall sx m e,
             SF64add (S754_finite sx m e) (S754_finite (negb sx) m e)
             = S754_zero false).
  { intros sx m e. unfold SF64add, SFadd, shl_align.
    rewrite Z.min_id, Z.sub_diag. cbn [fst].
    destruct sx; cbn [negb cond_Zopp];
      rewrite ?Z.add_opp_diag_l, ?Z.add_opp_diag_r; reflexivity. }
  split; apply Prim2SF_inj;
    rewrite !add_spec, ?sub_spec, opp_spec;
    change (Prim2SF 0) with (S754_zero false);
    destruct (is_finite_inv x Hfin) as [[sx E]|(sx & m & e & E)];
    rewrite E; try (destruct sx; reflexivity);
    cbn [SF64add SF64sub SFadd SFsub SFopp]; apply Hadd.
Qed.

(** X6. The three ways of placing the zeros at 1 and -1 do place them
    there in binary64: after [setResonance] with [normalize], after
    [setFilterType] with the type [BandPass] (neither call sent back), and
    after [setEqualGainZeroes], [b0 + b1 + b2] and [b0 - b1 + b2] are
    exactly 0, as long as the [b0] stored is finite. *)
Theorem zeros_placed_at_dc_and_nyquist (cos tan : StkFloat -> StkFloat)
    (PI TWO_PI : StkFloat) (STK_DEBUG : bool) (srate : StkFloat) (s : BiQuad) :
  wf s ->
  (forall frequency radius : StkFloat,
      resonance_rejected STK_DEBUG srate frequency radius = false ->
      let s' := setResonance cos TWO_PI STK_DEBUG srate frequency radius true s in
      is_finite (get_b 0 s') = true -> zeros_at_dc_and_nyquist s') /\
  (forall frequency Q : StkFloat,
      rejected STK_DEBUG frequency Q = false ->
      let s' := setFilterType tan PI STK_DEBUG srate BandPass frequency Q s in
      is_finite (get_b 0 s') = true -> zeros_at_dc_and_nyquist s') /\
  zeros_at_dc_and_nyquist (setEqualGainZeroes s).
Proof.
  intros H. split; [|split].
  - intros frequency radius E. cbv zeta.
    rewrite (setResonance_not_rejected cos TWO_PI STK_DEBUG srate frequency
               radius true s E).
    open_object s H. cbn. apply add_zero_opp.
  - intros frequency Q E. cbv zeta.
    rewrite (setFilterType_not_rejected tan PI STK_DEBUG srate BandPass
               frequency Q s E).
    open_object s H. cbn. apply add_zero_opp.
  - open_object s H. split; reflexivity.
Qed.

Lemma zeros_placed_at_dc_and_nyquist_witness :
  wf sample_object /\
  resonance_rejected true 44100 1000 0.9 = false /\
  is_finite (get_b 0 (setResonance Libm.cos Libm.TWO_PI true 44100 1000 0.9 true
                                   sample_object)) = true /\
  zeros_at_dc_and_nyquist
    (setResonance Libm.cos Libm.TWO_PI true 44100 1000 0.9 true sample_object) /\
  rejected true 1000 0.707 = false /\
  is_finite (get_b 0 (setFilterType Libm.tan Libm.PI true 44100 BandPass 1000 0.707
                                    sample_object)) = true /\
  zeros_at_dc_and_nyquist
    (setFilterType Libm.tan Libm.PI true 44100 BandPass 1000 0.707 sample_object) /\
  zeros_at_dc_and_nyquist (setEqualGainZeroes sample_object).
Proof.
  assert (Hw : wf sample_object) by (split; reflexivity).
  destruct (zeros_placed_at_dc_and_nyquist Libm.cos Libm.tan Libm.PI Libm.TWO_PI
              true 44100 sample_object Hw) as (Hr & Hf & Hz).
  split; [exact Hw|]. split; [reflexivity|]. split; [reflexivity|].
  split; [exact (Hr 1000 0.9 eq_refl eq_refl)|].
  split; [reflexivity|]. split; [reflexivity|].
  split; [exact (Hf 1000 0.707 eq_refl eq_refl) | exact Hz].
Defined.

(** ** How calls compose *)

(** Unfolds a call and decides every test met on the way. *)
Ltac run_cases :=
  cbn [run];
  unfold setCoefficients, setResonance, setNotch, setFilterType,
    setEqualGainZeroes, sampleRateChanged, ignoreSampleRateChange;
  repeat match goal with
         | |- context [if ?b then _ else _] => destruct b
         end.

(** X7. [setCoefficients], [setResonance] with [normalize] and
    [setFilterType] with one of the five types assign all five coefficients
    from their arguments and the sample rate alone: unless sent back, the
    same call leaves the same five coefficients on any two objects,
    whatever their coefficients were. *)
Theorem assigning_calls_forget_the_past (cos tan : StkFloat -> StkFloat)
    (PI TWO_PI : StkFloat) (STK_DEBUG : bool) (srate : StkFloat) (c : call)
    (s1 s2 : BiQuad) :
  wf s1 -> wf s2 ->
  assigns_all c = true ->
  call_rejected STK_DEBUG srate c = false ->
  coefficients (run cos tan PI TWO_PI STK_DEBUG srate c s1) =
  coefficients (run cos tan PI TWO_PI STK_DEBUG srate c s2).
Proof.
  intros H1 H2 Ha E.
  destruct c as [b0 b1 b2 a1 a2 cs|f r n|f r|t f Q| |nr or|ig'];
    try discriminate Ha; cbn [run call_rejected assigns_all] in *.
  - open_object s1 H1. open_object s2 H2. destruct cs; reflexivity.
  - subst n.
    rewrite !(setResonance_not_rejected cos TWO_PI STK_DEBUG srate f r true _ E).
    open_object s1 H1. open_object s2 H2. reflexivity.
  - rewrite !(setFilterType_not_rejected tan PI STK_DEBUG srate t f Q _ E).
    open_object s1 H1. open_object s2 H2.
    destruct t; try discriminate Ha; reflexivity.
Qed.

Lemma assigning_calls_forget_the_past_witness :
  wf BiQuad_new /\ wf sample_object /\
  assigns_all (CallSetFilterType HighPass 1000 0.707) = true /\
  call_rejected true 44100 (CallSetFilterType HighPass 1000 0.707) = false /\
  coefficients (run Libm.cos Libm.tan Libm.PI Libm.TWO_PI true 44100
                    (CallSetFilterType HighPass 1000 0.707) BiQuad_new) =
  coefficients (run Libm.cos Libm.tan Libm.PI Libm.TWO_PI true 44100
                    (CallSetFilterType HighPass 1000 0.707) sample_object).
Proof.
  assert (H1 : wf BiQuad_new) by (split; reflexivity).
  assert (H2 : wf sample_object) by (split; reflexivity).
  split; [exact H1|]. split; [exact H2|]. split; [reflexivity|].
  split; [reflexivity|].
  exact (assigning_calls_forget_the_past Libm.cos Libm.tan Libm.PI Libm.TWO_PI
           true 44100 (CallSetFilterType HighPass 1000 0.707)
           BiQuad_new sample_object H1 H2 eq_refl eq_refl).
Defined.

(** X8. Every call is idempotent on the coefficients: made a second time
    with the same arguments at the same sample rate, it leaves both
    coefficient vectors as the first time left them, in every build and
    whether or not the call is sent back. *)
Theorem calls_are_idempotent (cos tan : StkFloat -> StkFloat)
    (PI TWO_PI : StkFloat) (STK_DEBUG : bool) (srate : StkFloat) (c : call)
    (s : BiQuad) :
  wf s ->
  let once := run cos tan PI TWO_PI STK_DEBUG srate c s in
  let twice := run cos tan PI TWO_PI STK_DEBUG srate c once in
  b_ twice = b_ once /\ a_ twice = a_ once.
Proof.
  intros H. open_object s H. cbv zeta.
  destruct c as [b0 b1 b2 a1 a2 cs|f r n|f r|t f Q| |nr or|ig'].
  - destruct cs; split; reflexivity.
  - cbn [run]. unfold setResonance.
    destruct (STK_DEBUG && ((f <? 0) || (0.5 * srate <? f)));
      [split; reflexivity|].
    destruct (STK_DEBUG && ((r <? 0) || (1 <=? r)));
      [split; reflexivity|].
    destruct n; split; reflexivity.
  - cbn [run]. unfold setNotch.
    destruct (STK_DEBUG && ((f <? 0) || (0.5 * srate <? f)));
      [split; reflexivity|].
    destruct (STK_DEBUG && (r <? 0)); split; reflexivity.
  - cbn [run]. unfold setFilterType.
    destruct (STK_DEBUG && (f <? 0)); [split; reflexivity|].
    destruct (STK_DEBUG && (Q <? 0)); [split; reflexivity|].
    destruct t; split; reflexivity.
  - split; reflexivity.
  - destruct ignoreSampleRateChange_0; split; reflexivity.
  - split; reflexivity.
Qed.

Lemma calls_are_idempotent_witness :
  wf sample_object /\
  b_ (run Libm.cos Libm.tan Libm.PI Libm.TWO_PI true 44100
          (CallSetResonance 1000 0.9 true)
          (run Libm.cos Libm.tan Libm.PI Libm.TWO_PI true 44100
               (CallSetResonance 1000 0.9 true) sample_object))
  = b_ (run Libm.cos Libm.tan Libm.PI Libm.TWO_PI true 44100
            (CallSetResonance 1000 0.9 true) sample_object) /\
  a_ (run Libm.cos Libm.tan Libm.PI Libm.TWO_PI true 44100
          (CallSetResonance 1000 0.9 true)
          (run Libm.cos Libm.tan Libm.PI Libm.TWO_PI true 44100
               (CallSetResonance 1000 0.9 true) sample_object))
  = a_ (run Libm.cos Libm.tan Libm.PI Libm.TWO_PI true 44100
            (CallSetResonance 1000 0.9 true) sample_object).
Proof.
  assert (Hw : wf sample_object) by (split; reflexivity).
  split; [exact Hw|].
  exact (calls_are_idempotent Libm.cos Libm.tan Libm.PI Libm.TWO_PI true 44100
           (CallSetResonance 1000 0.9 true) sample_object Hw).
Defined.

(** X9. [setResonance] without [normalize] and [setNotch] write different
    coefficients and read none: made in either order they leave the same
    coefficient vectors, in every build, and in a build without
    [_STK_DEBUG_] the same object. *)
Theorem setResonance_setNotch_commute (cos : StkFloat -> StkFloat)
    (TWO_PI : StkFloat) (STK_DEBUG : bool) (srate fr rr fn rn : StkFloat)
    (s : BiQuad) :
  wf s ->
  let resonance := setResonance cos TWO_PI STK_DEBUG srate fr rr false in
  let notch := setNotch cos TWO_PI STK_DEBUG srate fn rn in
  b_ (notch (resonance s)) = b_ (resonance (notch s)) /\
  a_ (notch (resonance s)) = a_ (resonance (notch s)) /\
  (STK_DEBUG = false -> notch (resonance s) = resonance (notch s)).
Proof.
  intros H. open_object s H. cbv zeta. unfold setResonance, setNotch.
  destruct STK_DEBUG; cbn [andb];
    [|repeat split; reflexivity].
  destruct ((fr <? 0) || (0.5 * srate <? fr)), ((rr <? 0) || (1 <=? rr)),
    ((fn <? 0) || (0.5 * srate <? fn)), (rn <? 0);
    (split; [reflexivity|split; [reflexivity|intros E; discriminate E]]).
Qed.

Lemma setResonance_setNotch_commute_witness :
  wf sample_object /\
  b_ (setNotch Libm.cos Libm.TWO_PI true 44100 440 1.25
        (setResonance Libm.cos Libm.TWO_PI true 44100 1000 0.9 false sample_object))
  = b_ (setResonance Libm.cos Libm.TWO_PI true 44100 1000 0.9 false
          (setNotch Libm.cos Libm.TWO_PI true 44100 440 1.25 sample_object)) /\
  a_ (setNotch Libm.cos Libm.TWO_PI true 44100 440 1.25
        (setResonance Libm.cos Libm.TWO_PI true 44100 1000 0.9 false sample_object))
  = a_ (setResonance Libm.cos Libm.TWO_PI true 44100 1000 0.9 false
          (setNotch Libm.cos Libm.TWO_PI true 44100 440 1.25 sample_object)).
Proof.
  assert (Hw : wf sample_object) by (split; reflexivity).
  split; [exact Hw|].
  destruct (setResonance_setNotch_commute Libm.cos Libm.TWO_PI true 44100
              1000 0.9 440 1.25 sample_object Hw) as (Hb & Ha & _).
  split; [exact Hb | exact Ha].
Defined.

(** ** Histories *)

Section Histories.

Variables cos tan : StkFloat -> StkFloat.
Variables PI TWO_PI : StkFloat.
Variable STK_DEBUG : bool.

Abbreviation run' := (run cos tan PI TWO_PI STK_DEBUG).
Abbreviation run_history' := (run_history cos tan PI TWO_PI STK_DEBUG).

Lemma run_history_cons (srate : StkFloat) (c : call) (h : history) (s : BiQuad) :
  run_history' ((srate, c) :: h) s = run_history' h (run' srate c s).
Proof. reflexivity. Qed.

(** What holds of an object and is kept by every call holds after every
    history. *)
Lemma run_history_invariant (P : BiQuad -> Prop) :
  (forall srate c s, P s -> P (run' srate c s)) ->
  forall (h : history) (s : BiQuad), P s -> P (run_history' h s).
Proof.
  intros Hstep h. induction h as [|[srate c] h IH]; intros s Hs.
  - exact Hs.
  - rewrite run_history_cons. apply IH, Hstep, Hs.
Qed.

(** One call: the lengths of the four vectors. *)
Lemma run_keeps_lengths (srate : StkFloat) (c : call) (s : BiQuad) :
  length (b_ (run' srate c s)) = length (b_ s) /\
  length (a_ (run' srate c s)) = length (a_ s) /\
  length (inputs_ (run' srate c s)) = length (inputs_ s) /\
  length (outputs_ (run' srate c s)) = length (outputs_ s).
Proof.
  destruct s as [b a i o os ig tr].
  destruct c as [b0 b1 b2 a1 a2 cs|f r n|f r|t f Q| |nr or|ig'];
    run_cases; try destruct t; cbn; unfold vec_set;
    rewrite ?length_insert, ?length_replicate; repeat split; reflexivity.
Qed.

(** One call: what it adds to the trace. *)
Lemma run_extends_trace (srate : StkFloat) (c : call) (s : BiQuad) :
  exists l,
    trace (run' srate c s) = trace s ++ l /\
    (length l <= 1)%nat /\
    Forall (fun e => is_clear_or_warning e = true) l /\
    clears l = (if resets_state c then 1 else 0)%nat.
Proof.
  destruct s as [b a i o os ig tr].
  destruct c as [b0 b1 b2 a1 a2 cs|f r n|f r|t f Q| |nr or|ig'];
    cbn [resets_state]; run_cases; try destruct t;
    first
      [ exists []; cbn; rewrite ?app_nil_r;
        split; [reflexivity|]; split; [lia|]; split; [constructor|reflexivity]
      | eexists [_]; cbn;
        split; [reflexivity|]; split; [lia|];
        split; [repeat constructor|reflexivity] ].
Qed.

End Histories.

(** X10. After every history of calls on a new object, at whatever sample
    rates and in every build, the two coefficient vectors and the two delay
    lines still have the three entries the constructor gave them: no method
    resizes a vector, so the indices 0, 1 and 2 that the methods read and
    write are always in range. *)
Theorem vectors_keep_three_entries (cos tan : StkFloat -> StkFloat)
    (PI TWO_PI : StkFloat) (STK_DEBUG : bool) (h : history) :
  let s := run_history cos tan PI TWO_PI STK_DEBUG h BiQuad_new in
  length (b_ s) = 3%nat /\ length (a_ s) = 3%nat /\
  length (inputs_ s) = 3%nat /\ length (outputs_ s) = 3%nat /\
  forall i : nat, (i < 3)%nat -> is_Some (b_ s !! i) /\ is_Some (a_ s !! i).
Proof.
  cbv zeta.
  assert (H : length (b_ (run_history cos tan PI TWO_PI STK_DEBUG h BiQuad_new)) = 3%nat /\
              length (a_ (run_history cos tan PI TWO_PI STK_DEBUG h BiQuad_new)) = 3%nat /\
              length (inputs_ (run_history cos tan PI TWO_PI STK_DEBUG h BiQuad_new)) = 3%nat /\
              length (outputs_ (run_history cos tan PI TWO_PI STK_DEBUG h BiQuad_new)) = 3%nat).
  { apply (run_history_invariant cos tan PI TWO_PI STK_DEBUG
             (fun s => length (b_ s) = 3%nat /\ length (a_ s) = 3%nat /\
                       length (inputs_ s) = 3%nat /\ length (outputs_ s) = 3%nat)).
    - intros srate c s (Hb & Ha & Hi & Ho).
      destruct (run_keeps_lengths cos tan PI TWO_PI STK_DEBUG srate c s)
        as (Eb & Ea & Ei & Eo).
      rewrite Eb, Ea, Ei, Eo. repeat split; assumption.
    - repeat split; reflexivity. }
  destruct H as (Hb & Ha & Hi & Ho).
  repeat split; try assumption; apply lookup_lt_is_Some; lia.
Qed.

(** X11. Of all the calls only [setCoefficients] with [clearState] touches
    the delay lines: every other call leaves [inputs_] and [outputs_] as
    they were, and after any history the number of state resets requested
    is the number of [setCoefficients] calls made with [clearState]. *)
Theorem only_setCoefficients_resets_state (cos tan : StkFloat -> StkFloat)
    (PI TWO_PI : StkFloat) (STK_DEBUG : bool) :
  (forall (srate : StkFloat) (c : call) (s : BiQuad),
      resets_state c = false ->
      inputs_ (run cos tan PI TWO_PI STK_DEBUG srate c s) = inputs_ s /\
      outputs_ (run cos tan PI TWO_PI STK_DEBUG srate c s) = outputs_ s) /\
  (forall (h : history) (s : BiQuad),
      clears (trace (run_history cos tan PI TWO_PI STK_DEBUG h s)) =
      (clears (trace s) + length (resetting_calls h))%nat).
Proof.
  split.
  - intros srate c s Hc. destruct s as [b a i o os ig tr].
    destruct c as [b0 b1 b2 a1 a2 cs|f r n|f r|t f Q| |nr or|ig'];
      cbn [resets_state] in Hc; try subst cs;
      run_cases; try destruct t; split; reflexivity.
  - intros h. induction h as [|[srate c] h IH]; intros s.
    + cbn. lia.
    + rewrite run_history_cons, IH.
      destruct (run_extends_trace cos tan PI TWO_PI STK_DEBUG srate c s)
        as (l & Ht & _ & _ & Hl).
      rewrite Ht. unfold clears in *. rewrite filter_app, length_app, Hl.
      cbn [resetting_calls List.filter snd]. fold (resetting_calls h).
      destruct (resets_state c); cbn [length]; lia.
Qed.

Lemma only_setCoefficients_resets_state_witness :
  resets_state (CallSetResonance 1000 0.9 true) = false /\
  (inputs_ (run Libm.cos Libm.tan Libm.PI Libm.TWO_PI true 44100
                (CallSetResonance 1000 0.9 true) sample_object)
     = inputs_ sample_object /\
   outputs_ (run Libm.cos Libm.tan Libm.PI Libm.TWO_PI true 44100
                 (CallSetResonance 1000 0.9 true) sample_object)
     = outputs_ sample_object) /\
  clears (trace sample_history) = 1%nat.
Proof.
  split; [reflexivity|]. split.
  - exact (proj1 (only_setCoefficients_resets_state Libm.cos Libm.tan Libm.PI
                    Libm.TWO_PI true)
                 44100 (CallSetResonance 1000 0.9 true) sample_object eq_refl).
  - exact (proj2 (only_setCoefficients_resets_state Libm.cos Libm.tan Libm.PI
                    Libm.TWO_PI true)
                 [(44100, CallSetCoefficients 2 3 4 5 6 true);
                  (44100, CallSetResonance 1000 0.9 true);
                  (44100, CallSetNotch 440 1.25);
                  (48000, CallSampleRateChanged 48000 44100);
                  (48000, CallSetFilterType (Unrecognized 7) 0 0);
                  (48000, CallSetEqualGainZeroes)]
                 BiQuad_new).
Defined.

(** X12. The trace of an object after any history begins with the one
    registration for sample-rate alerts that the constructor makes, and
    goes on with at most one event for each call, each of them a state
    reset or an error of type [WARNING]: no method registers again, and no
    method reports an error of another type. *)
Theorem trace_of_a_history (cos tan : StkFloat -> StkFloat)
    (PI TWO_PI : StkFloat) (STK_DEBUG : bool) (h : history) :
  exists l,
    trace (run_history cos tan PI TWO_PI STK_DEBUG h BiQuad_new)
      = EvAddSampleRateAlert :: l /\
    (length l <= length h)%nat /\
    Forall (fun e => is_clear_or_warning e = true) l.
Proof.
  assert (G : forall (h : history) (s : BiQuad) (l0 : list event),
             trace s = EvAddSampleRateAlert :: l0 ->
             Forall (fun e => is_clear_or_warning e = true) l0 ->
             exists l,
               trace (run_history cos tan PI TWO_PI STK_DEBUG h s)
                 = EvAddSampleRateAlert :: l /\
               (length l <= length l0 + length h)%nat /\
               Forall (fun e => is_clear_or_warning e = true) l).
  { clear h. intros h. induction h as [|[srate c] h IH]; intros s l0 Ht Hl0.
    - exists l0. repeat split; [exact Ht | cbn; lia | exact Hl0].
    - rewrite run_history_cons.
      destruct (run_extends_trace cos tan PI TWO_PI STK_DEBUG srate c s)
        as (l1 & Ht1 & Hlen & Hl1 & _).
      destruct (IH (run cos tan PI TWO_PI STK_DEBUG srate c s) (l0 ++ l1))
        as (l & Hl & Hle & Hok).
      + rewrite Ht1, Ht. reflexivity.
      + apply Forall_app. split; assumption.
      + exists l. repeat split; [exact Hl | | exact Hok].
        rewrite length_app in Hle. cbn [length]. lia. }
  destruct (G h BiQuad_new [] eq_refl (List.Forall_nil _)) as (l & Hl & Hle & Hok).
  exists l. repeat split; [exact Hl | cbn in Hle; lia | exact Hok].
Qed.

(** One notice of a change of the sample rate. *)
Lemma sampleRateChanged_warns_once (newRate oldRate : StkFloat) (s : BiQuad) :
  let s' := sampleRateChanged newRate oldRate s in
  b_ s' = b_ s /\ a_ s' = a_ s /\
  inputs_ s' = inputs_ s /\ outputs_ s' = outputs_ s /\
  ignoreSampleRateChange_ s' = ignoreSampleRateChange_ s /\
  length (warnings (trace s')) =
  (length (warnings (trace s)) +
   (if ignoreSampleRateChange_ s then 0 else 1))%nat.
Proof.
  destruct s as [b a i o os [|] tr]; cbv zeta; unfold sampleRateChanged, warnings;
    cbn [ignoreSampleRateChange_ negb].
  - repeat split. cbn [trace]. lia.
  - repeat split. cbn [handleError put trace].
    rewrite filter_app, length_app. reflexivity.
Qed.

(** X13. Notices of a change of the sample rate never recompute anything:
    after any number of them the coefficient vectors and the delay lines
    are as they were, and the trace has one warning more for each notice,
    or none at all when the object ignores the notices.  The rates in the
    notices play no part. *)
Theorem rate_changes_only_warn (cos tan : StkFloat -> StkFloat)
    (PI TWO_PI : StkFloat) (STK_DEBUG : bool) (h : history) (s : BiQuad) :
  Forall (fun rc => is_rate_change (snd rc) = true) h ->
  let s' := run_history cos tan PI TWO_PI STK_DEBUG h s in
  b_ s' = b_ s /\ a_ s' = a_ s /\
  inputs_ s' = inputs_ s /\ outputs_ s' = outputs_ s /\
  ignoreSampleRateChange_ s' = ignoreSampleRateChange_ s /\
  length (warnings (trace s')) =
  (length (warnings (trace s)) +
   (if ignoreSampleRateChange_ s then 0 else length h))%nat.
Proof.
  cbv zeta. revert s. induction h as [|[srate c] h IH]; intros s Hh.
  - cbn. destruct (ignoreSampleRateChange_ s); repeat split; lia.
  - apply Forall_cons in Hh. destruct Hh as [Hc Hh]. cbn [snd] in Hc.
    rewrite run_history_cons.
    destruct (IH (run cos tan PI TWO_PI STK_DEBUG srate c s) Hh)
      as (Eb & Ea & Ei & Eo & Eg & Ew).
    rewrite Eb, Ea, Ei, Eo, Eg, Ew. clear IH Eb Ea Ei Eo Eg Ew Hh.
    destruct c as [b0 b1 b2 a1 a2 cs|f r n|f r|t f Q| |nr or|ig'];
      try discriminate Hc.
    destruct (sampleRateChanged_warns_once nr or s)
      as (Eb & Ea & Ei & Eo & Eg & Ew).
    cbn [run]. rewrite Eb, Ea, Ei, Eo, Eg, Ew.
    destruct (ignoreSampleRateChange_ s); cbn [length]; repeat split; lia.
Qed.

Lemma rate_changes_only_warn_witness :
  Forall (fun rc => is_rate_change (snd rc) = true)
         [(48000, CallSampleRateChanged 48000 44100);
          (96000, CallSampleRateChanged 96000 48000)] /\
  b_ (run_history Libm.cos Libm.tan Libm.PI Libm.TWO_PI true
        [(48000, CallSampleRateChanged 48000 44100);
         (96000, CallSampleRateChanged 96000 48000)] sample_object)
    = b_ sample_object /\
  a_ (run_history Libm.cos Libm.tan Libm.PI Libm.TWO_PI true
        [(48000, CallSampleRateChanged 48000 44100);
         (96000, CallSampleRateChanged 96000 48000)] sample_object)
    = a_ sample_object /\
  length (warnings (trace (run_history Libm.cos Libm.tan Libm.PI Libm.TWO_PI true
        [(48000, CallSampleRateChanged 48000 44100);
         (96000, CallSampleRateChanged 96000 48000)] sample_object)))
    = (length (warnings (trace sample_object)) + 2)%nat.
Proof.
  assert (H : Forall (fun rc => is_rate_change (snd rc) = true)
                [(48000, CallSampleRateChanged 48000 44100);
                 (96000, CallSampleRateChanged 96000 48000)])
    by (repeat constructor).
  split; [exact H|].
  destruct (rate_changes_only_warn Libm.cos Libm.tan Libm.PI Libm.TWO_PI true
              [(48000, CallSampleRateChanged 48000 44100);
               (96000, CallSampleRateChanged 96000 48000)] sample_object H)
    as (Hb & Ha & _ & _ & _ & Hw).
  split; [exact Hb|]. split; [exact Ha | exact Hw].
Defined.

(** ** The warnings of setResonance and setNotch *)

(** X14. In a build with [_STK_DEBUG_] the frequency is tested before the
    radius: a call of [setResonance] or [setNotch] with a frequency out of
    range is answered by the warning about the frequency, whatever the
    radius is, and only a call with a frequency that passes is answered by
    the warning about the radius. *)
Theorem frequency_is_tested_first (cos : StkFloat -> StkFloat)
    (TWO_PI : StkFloat) (srate frequency radius : StkFloat) (normalize : bool)
    (s : BiQuad) :
  let r := setResonance cos TWO_PI true srate frequency radius normalize s in
  let n := setNotch cos TWO_PI true srate frequency radius s in
  let out := (frequency <? 0) || (0.5 * srate <? frequency) in
  (out = true ->
   trace r = trace s ++
     [EvError (oStream_ s ++
               [Text "BiQuad::setResonance: frequency argument (";
                Num frequency; Text ") is out of range!"]) WARNING] /\
   trace n = trace s ++
     [EvError (oStream_ s ++
               [Text "BiQuad::setNotch: frequency argument (";
                Num frequency; Text ") is out of range!"]) WARNING]) /\
  (out = false -> (radius <? 0) || (1 <=? radius) = true ->
   trace r = trace s ++
     [EvError (oStream_ s ++
               [Text "BiQuad::setResonance: radius argument (";
                Num radius; Text ") is out of range!"]) WARNING]) /\
  (out = false -> (radius <? 0) = true ->
   trace n = trace s ++
     [EvError (oStream_ s ++
               [Text "BiQuad::setNotch: radius argument (";
                Num radius; Text ") is negative!"]) WARNING]).
Proof.
  cbv zeta. unfold setResonance, setNotch. cbn [andb].
  split; [|split].
  - intros ->. cbn. rewrite <- !app_assoc. split; reflexivity.
  - intros -> ->. cbn. rewrite <- !app_assoc. reflexivity.
  - intros -> ->. cbn. rewrite <- !app_assoc. reflexivity.
Qed.

Lemma frequency_is_tested_first_witness :
  (-10 <? 0) || (0.5 * 44100 <? -10) = true /\
  trace (setResonance Libm.cos Libm.TWO_PI true 44100 (-10) 1.5 true sample_object)
  = trace sample_object ++
    [EvError [Text "BiQuad::setResonance: frequency argument (";
              Num (-10); Text ") is out of range!"] WARNING] /\
  trace (setNotch Libm.cos Libm.TWO_PI true 44100 (-10) 1.5 sample_object)
  = trace sample_object ++
    [EvError [Text "BiQuad::setNotch: frequency argument (";
              Num (-10); Text ") is out of range!"] WARNING].
Proof.
  split; [reflexivity|].
  exact (proj1 (frequency_is_tested_first Libm.cos Libm.TWO_PI 44100 (-10) 1.5
                  true sample_object) eq_refl).
Defined.
